(** * DNS-over-QUIC query exchange (doquic.go): a shallow embedding

    The Go file has three methods on [*Transport]:
    [sendQueryQUIC], [recvResponseQUIC] and [queryQUIC].  All three are
    straight-line code over external libraries (net, crypto/tls,
    quic-go, miekg/dns, io, context).  The embedding keeps the control
    flow of the Go code as it is written and replaces each library call
    by an oracle of an environment record [Env]; every call that touches
    the outside world is logged in a chronological trace of [Event]s, and
    the caller's [*dns.Msg] is a cell of the world state, because the code
    mutates it in place. *)

From Stdlib Require Import ZArith List Ascii String Bool Lia.
From Stdlib.Strings Require Import Byte.
Import ListNotations.
Open Scope Z_scope.
Open Scope list_scope.

(** ** Octets and 16-bit big-endian words *)

Definition byteOfZ (z : Z) : byte :=
  match Byte.of_N (Z.to_N (z mod 256)) with
  | Some b => b
  | None => x00
  end.

Definition zOfByte (b : byte) : Z := Z.of_N (Byte.to_N b).

(** binary.BigEndian.PutUint16 *)
Definition PutUint16 (v : Z) : list byte :=
  [byteOfZ (Z.shiftr v 8); byteOfZ v].

(** binary.BigEndian.Uint16 *)
Definition Uint16 (b0 b1 : byte) : Z :=
  Z.lor (Z.shiftl (zOfByte b0) 8) (zOfByte b1).

(** ** Library data the code handles *)

Definition Time := Z.
(** The zero value of time.Time. *)
Definition zeroTime : Time := 0.

Module Net.
(** net.UDPAddr; an IP is its octets. *)
Record UDPAddr := mkUDPAddr { IP : list byte; Port : Z; Zone : string }.

(** net.IPv4zero = net.IPv4(0, 0, 0, 0), the 16-octet form. *)
Definition IPv4zero : list byte :=
  [x00; x00; x00; x00; x00; x00; x00; x00; x00; x00; xff; xff;
   x00; x00; x00; x00].

(** Handle of a bound socket, *net.UDPConn. *)
Definition UDPConn := nat.
End Net.

Module Tls.
(** The two fields of tls.Config the code fills in. *)
Record Config := mkConfig { NextProtos : list string; ServerName : string }.
End Tls.

Module Quic.
(** quic.Config{}: the code sets no field. *)
Inductive Config : Set := DefaultConfig.
(** quic.Transport{Conn: udpConn} *)
Record Transport := mkTransport { Conn : Net.UDPConn }.
Definition Connection := nat.
Definition Stream := nat.
End Quic.

Module Ctx.
(** What ctx.Err() can report. *)
Inductive Err := Canceled | DeadlineExceeded.
(** A context.Context as this code observes it: ctx.Err() and
    ctx.Deadline(). *)
Record Context := mkContext { err : option Err; deadline : option Time }.
End Ctx.

Module Dns.
Record Question := mkQuestion { Name : string; Qtype : Z; Qclass : Z }.
Record RR := mkRR
  { RRName : string; Rrtype : Z; Class : Z; Ttl : Z; Rdata : list byte }.

(** Everything of a dns.Msg but its Id. *)
Record MsgBody := mkMsgBody
  { Response : bool; Opcode : Z; Authoritative : bool; Truncated : bool;
    RecursionDesired : bool; RecursionAvailable : bool; Rcode : Z;
    Questions : list Question; Answer : list RR; Ns : list RR;
    Extra : list RR }.

(** dns.Msg: the Id (a uint16) and the rest. *)
Record Msg := mkMsg { Id : Z; Body : MsgBody }.

Definition setId (m : Msg) (id : Z) : Msg :=
  {| Id := id mod 65536; Body := Body m |}.
End Dns.

(** ServerAddr: the code reads its Address only. *)
Record ServerAddr := mkServerAddr { Address : string }.

(** ** Errors

    A Go [error] is modelled with the call it comes from, so that a
    theorem can say which step an error of the operation belongs to. *)
Inductive error : Type :=
| ErrContext (e : Ctx.Err)
| ErrResolveUDPAddr (msg : string)
| ErrListenUDP (msg : string)
| ErrSplitHostPort (msg : string)
| ErrPack (msg : string)
| ErrDial (msg : string)
| ErrOpenStream (msg : string)
| ErrStreamWrite (msg : string)
| ErrStreamClose (msg : string)
| ErrStreamRead (msg : string)
| ErrUnpack (msg : string).

(** ** Events: the calls that reach the outside world, in order *)
Inductive Event : Type :=
| EvResolveUDPAddr (network address : string)
| EvListenUDP (laddr : Net.UDPAddr) (r : option Net.UDPConn)
| EvSetDeadline (c : Net.UDPConn) (t : Time)
| EvLogQuery (addr : ServerAddr) (rawQuery : list byte)
| EvDial (tr : Quic.Transport) (raddr : Net.UDPAddr) (tlsConf : Tls.Config)
         (conf : Quic.Config) (r : option Quic.Connection)
| EvOpenStream (c : Quic.Connection) (r : option Quic.Stream)
| EvStreamWrite (s : Quic.Stream) (p : list byte)
| EvStreamClose (s : Quic.Stream)
| EvReadFull (s : Quic.Stream) (size : nat)
(* the releasing calls of the two libraries *)
| EvUDPConnClose (c : Net.UDPConn)
| EvConnectionClose (c : Quic.Connection).

(** ** The environment: one oracle per library call *)
Record Env := mkEnv
  { (* net.ResolveUDPAddr("udp", address) *)
    ResolveUDPAddr : string -> string + Net.UDPAddr;
    (* net.ListenUDP("udp", laddr) *)
    ListenUDP : Net.UDPAddr -> string + Net.UDPConn;
    (* net.SplitHostPort(hostport): host, port or an error *)
    SplitHostPort : string -> string + (string * string);
    (* udpConn.SetDeadline(t) *)
    SetDeadline : Net.UDPConn -> Time -> option string;
    (* what dns.Msg.Pack writes after the two Id octets *)
    packBody : Dns.MsgBody -> string + list byte;
    (* the timestamp t.maybeLogQuery returns *)
    logQueryTime : ServerAddr -> list byte -> Time;
    (* tr.Dial(ctx, addr, tlsConf, conf) *)
    Dial : Quic.Transport -> Ctx.Context -> Net.UDPAddr -> Tls.Config ->
           Quic.Config -> string + Quic.Connection;
    (* quicConn.OpenStream() *)
    OpenStream : Quic.Connection -> string + Quic.Stream;
    (* stream.Write(p): octets written and error *)
    StreamWrite : Quic.Stream -> list byte -> Z * option string;
    (* stream.Close() *)
    StreamClose : Quic.Stream -> option string;
    (* the octets that arrive on the stream, and how its receive side
       ends: None when the peer closes (io.EOF), Some msg on an error *)
    StreamIncoming : Quic.Stream -> list byte * option string;
    (* what dns.Msg.Unpack makes of the octets, apart from the Id *)
    unpackBody : list byte -> string + Dns.MsgBody }.

(** ** miekg/dns: Pack and Unpack, as far as the Id goes

    Pack writes the header first, and the header starts with the Id as a
    big-endian uint16; Unpack reads it back from there. *)
Definition Pack (E : Env) (m : Dns.Msg) : string + list byte :=
  match packBody E (Dns.Body m) with
  | inl msg => inl msg
  | inr tail => inr (PutUint16 (Dns.Id m) ++ tail)
  end.

Definition Unpack (E : Env) (msg : list byte) : string + Dns.Msg :=
  match msg with
  | b0 :: b1 :: _ =>
      match unpackBody E msg with
      | inl e => inl e
      | inr body => inr {| Dns.Id := Uint16 b0 b1; Dns.Body := body |}
      end
  | _ => inl "dns: overflow unpacking uint16"%string
  end.

(** ** io.ReadFull(r, buf)

    [buf] is a fresh make([]byte, size), all zero.  ReadFull copies what
    arrives to its front until it is full or the stream ends; it returns
    the count and nil when the buffer was filled, io.EOF when nothing
    arrived, io.ErrUnexpectedEOF when the stream closed early, and the
    stream's own error otherwise. *)
Definition ReadFull (incoming : list byte) (ending : option string)
    (size : nat) : list byte * Z * option error :=
  let got := firstn size incoming in
  let n := List.length got in
  let buf := got ++ repeat x00 (size - n) in
  let err :=
    if Nat.eqb n size then None
    else match ending with
         | Some msg => Some (ErrStreamRead msg)
         | None => if Nat.eqb n 0 then Some (ErrStreamRead "EOF"%string)
                   else Some (ErrStreamRead "unexpected EOF"%string)
         end in
  (buf, Z.of_nat n, err).

(** ** World state and the monad of the code *)
Record World := mkWorld
  { trace : list Event;      (* calls made so far, oldest first *)
    queryMsg : Dns.Msg       (* the object [query *dns.Msg] points to *) }.

Definition M (A : Type) : Type := World -> A * World.

Definition ret {A} (a : A) : M A := fun w => (a, w).

Definition bind {A B} (c : M A) (k : A -> M B) : M B :=
  fun w => let (a, w') := c w in k a w'.

Declare Scope doq_scope.
Delimit Scope doq_scope with doq.
Notation "x <- c ;; k" := (bind c (fun x => k))
  (at level 100, c at next level, right associativity) : doq_scope.
Notation "c ;;; k" := (bind c (fun _ => k))
  (at level 100, right associativity) : doq_scope.
Open Scope doq_scope.

Definition emit (e : Event) : M unit :=
  fun w => (tt, {| trace := trace w ++ [e]; queryMsg := queryMsg w |}).

Definition readQuery : M Dns.Msg := fun w => (queryMsg w, w).

(** query.Id = v *)
Definition assignQueryId (v : Z) : M unit :=
  fun w => (tt, {| trace := trace w; queryMsg := Dns.setId (queryMsg w) v |}).

Definition okOf {A B} (r : A + B) : option B :=
  match r with inl _ => None | inr b => Some b end.

(** ** sendQueryQUIC *)

(** The four named results of sendQueryQUIC. *)
Record SendResult := mkSendResult
  { stream : option Quic.Stream; t0 : Time; rawQuery : list byte;
    err : option error }.

Definition laddrAny : Net.UDPAddr :=
  {| Net.IP := Net.IPv4zero; Net.Port := 0; Net.Zone := ""%string |}.

Definition sendQueryQUIC (E : Env) (ctx : Ctx.Context) (addr : ServerAddr)
    : M SendResult :=
  emit (EvResolveUDPAddr "udp"%string (Address addr)) ;;;
  match ResolveUDPAddr E (Address addr) with
  | inl msg => ret (mkSendResult None zeroTime [] (Some (ErrResolveUDPAddr msg)))
  | inr udpAddr =>
  emit (EvListenUDP laddrAny (okOf (ListenUDP E laddrAny))) ;;;
  match ListenUDP E laddrAny with
  | inl msg => ret (mkSendResult None zeroTime [] (Some (ErrListenUDP msg)))
  | inr udpConn =>
  let tr := {| Quic.Conn := udpConn |} in
  (* 1. Fill in a default TLS config and QUIC config *)
  match SplitHostPort E (Address addr) with
  | inl msg => ret (mkSendResult None zeroTime [] (Some (ErrSplitHostPort msg)))
  | inr (hostname, _) =>
  let tlsConfig := {| Tls.NextProtos := ["doq"%string]; Tls.ServerName := hostname |} in
  let quicConfig := Quic.DefaultConfig in
  (* 2. Use the context deadline to limit the query lifetime *)
  match Ctx.deadline ctx with
  | Some deadline =>
      emit (EvSetDeadline udpConn deadline) ;;;
      (* _ = udpConn.SetDeadline(deadline) *)
      let _ := SetDeadline E udpConn deadline in
      ret tt
  | None => ret tt
  end ;;;
  (* RFC 9250, 4.2.1: the DNS Message ID MUST be set to 0 *)
  assignQueryId 0 ;;;
  query <- readQuery ;;
  match Pack E query with
  | inl msg => ret (mkSendResult None zeroTime [] (Some (ErrPack msg)))
  | inr rawQuery =>
  emit (EvLogQuery addr rawQuery) ;;;
  let t0 := logQueryTime E addr rawQuery in
  emit (EvDial tr udpAddr tlsConfig quicConfig
          (okOf (Dial E tr ctx udpAddr tlsConfig quicConfig))) ;;;
  match Dial E tr ctx udpAddr tlsConfig quicConfig with
  | inl msg => ret (mkSendResult None t0 rawQuery (Some (ErrDial msg)))
  | inr quicConn =>
  emit (EvOpenStream quicConn (okOf (OpenStream E quicConn))) ;;;
  match OpenStream E quicConn with
  | inl msg => ret (mkSendResult None t0 rawQuery (Some (ErrOpenStream msg)))
  | inr stream =>
  emit (EvStreamWrite stream rawQuery) ;;;
  (* the results of stream.Write are dropped *)
  let _ := StreamWrite E stream rawQuery in
  emit (EvStreamClose stream) ;;;
  (* _ = stream.Close() *)
  let _ := StreamClose E stream in
  ret (mkSendResult (Some stream) t0 rawQuery None)
  end end end end end end.

(** ** recvResponseQUIC *)

Definition bufferSize : nat := 1024.

Definition recvResponseQUIC (E : Env) (ctx : Ctx.Context) (addr : ServerAddr)
    (stream : Quic.Stream) (t0 : Time) (rawQuery : list byte)
    : M (option Dns.Msg * option error) :=
  (* 1. Read the corresponding raw response *)
  emit (EvReadFull stream bufferSize) ;;;
  let '(buffer, _, _) :=
    ReadFull (fst (StreamIncoming E stream)) (snd (StreamIncoming E stream))
             bufferSize in
  (* 2. Parse the raw response *)
  match Unpack E buffer with
  | inl msg => ret (None, Some (ErrUnpack msg))
  | inr resp => ret (Some resp, None)
  end.

(** ** queryQUIC *)

Definition queryQUIC (E : Env) (ctx : Ctx.Context) (addr : ServerAddr)
    : M (option Dns.Msg * option error) :=
  (* 0. immediately fail if the context is already done *)
  match Ctx.err ctx with
  | Some e => ret (None, Some (ErrContext e))
  | None =>
  (* Send the query and log the query if needed. *)
  r <- sendQueryQUIC E ctx addr ;;
  match err r, stream r with
  | Some e, _ => ret (None, Some e)
  | None, Some s =>
      (* Read and parse the response and log it if needed. *)
      recvResponseQUIC E ctx addr s (t0 r) (rawQuery r)
  | None, None =>
      (* a nil stream without an error: sendQueryQUIC never returns it
         (sendQueryQUIC_stream_iff_ok) *)
      ret (None, None)
  end
  end.

(** ** Resources held, read off a trace

    A socket is held from the ListenUDP that returned it until a Close of
    it; a QUIC connection from its Dial until its Close. *)
Fixpoint openUDPConns (held : list Net.UDPConn) (evs : list Event)
    : list Net.UDPConn :=
  match evs with
  | [] => held
  | EvListenUDP _ (Some c) :: evs' => openUDPConns (held ++ [c]) evs'
  | EvUDPConnClose c :: evs' =>
      openUDPConns (filter (fun c' => negb (Nat.eqb c' c)) held) evs'
  | _ :: evs' => openUDPConns held evs'
  end.

Fixpoint openConnections (held : list Quic.Connection) (evs : list Event)
    : list Quic.Connection :=
  match evs with
  | [] => held
  | EvDial _ _ _ _ (Some c) :: evs' => openConnections (held ++ [c]) evs'
  | EvConnectionClose c :: evs' =>
      openConnections (filter (fun c' => negb (Nat.eqb c' c)) held) evs'
  | _ :: evs' => openConnections held evs'
  end.

Definition releases (e : Event) : bool :=
  match e with
  | EvUDPConnClose _ | EvConnectionClose _ => true
  | _ => false
  end.

(** The network steps: address resolution, socket creation, dial and
    stream I/O. *)
Definition networkStep (e : Event) : bool :=
  match e with
  | EvResolveUDPAddr _ _ | EvListenUDP _ _ | EvDial _ _ _ _ _
  | EvOpenStream _ _ | EvStreamWrite _ _ | EvStreamClose _
  | EvReadFull _ _ => true
  | _ => false
  end.

(** [a] occurs in [evs] and [b] occurs later. *)
Definition precedes (a b : Event) (evs : list Event) : Prop :=
  exists l1 l2 l3, evs = l1 ++ a :: l2 ++ b :: l3.

(** ** A sample environment, for concrete runs *)
Module Sample.
(** Host and port around the last colon. *)
Fixpoint splitLastColon (s : string) : option (string * string) :=
  match s with
  | EmptyString => None
  | String ch rest =>
      match splitLastColon rest with
      | Some (h, p) => Some (String ch h, p)
      | None => if Ascii.eqb ch ":"%char
                then Some (EmptyString, rest) else None
      end
  end.

Definition resolver : Net.UDPAddr :=
  {| Net.IP := [x5e; x8c; x0e; x0e]; Net.Port := 853; Net.Zone := ""%string |}.

Definition env (pack : Dns.MsgBody -> string + list byte)
    (write : Z * option string) (close : option string)
    (incoming : list byte * option string)
    (unpack : list byte -> string + Dns.MsgBody) : Env :=
  {| ResolveUDPAddr := fun _ => inr resolver;
     ListenUDP := fun _ => inr 3%nat;
     SplitHostPort := fun hp =>
       match splitLastColon hp with
       | Some r => inr r
       | None => inl "missing port in address"%string
       end;
     SetDeadline := fun _ _ => None;
     packBody := pack;
     logQueryTime := fun _ _ => 1000;
     Dial := fun _ _ _ _ _ => inr 1%nat;
     OpenStream := fun _ => inr 0%nat;
     StreamWrite := fun _ _ => write;
     StreamClose := fun _ => close;
     StreamIncoming := fun _ => incoming;
     unpackBody := unpack |}.

Definition addr : ServerAddr := {| Address := "dns.adguard.com:853"%string |}.

Definition body : Dns.MsgBody :=
  {| Dns.Response := false; Dns.Opcode := 0; Dns.Authoritative := false;
     Dns.Truncated := false; Dns.RecursionDesired := true;
     Dns.RecursionAvailable := false; Dns.Rcode := 0;
     Dns.Questions := [ {| Dns.Name := "example.com."%string;
                           Dns.Qtype := 1; Dns.Qclass := 1 |} ];
     Dns.Answer := []; Dns.Ns := []; Dns.Extra := [] |}.

(** The caller's message, with a nonzero Id. *)
Definition query : Dns.Msg := {| Dns.Id := 48879; Dns.Body := body |}.

Definition world : World := {| trace := []; queryMsg := query |}.

Definition background : Ctx.Context :=
  {| Ctx.err := None; Ctx.deadline := None |}.
Definition withDeadline : Ctx.Context :=
  {| Ctx.err := None; Ctx.deadline := Some 5000 |}.
Definition canceled : Ctx.Context :=
  {| Ctx.err := Some Ctx.Canceled; Ctx.deadline := None |}.

(** Header flags and counts of the query, then nothing else. *)
Definition packOk (_ : Dns.MsgBody) : string + list byte :=
  inr [x01; x00; x00; x00; x00; x00; x00; x00; x00; x00].
Definition packFails (_ : Dns.MsgBody) : string + list byte :=
  inl "dns: bad rdata"%string.

(** A sample decoder, after dns.Msg.Unpack: the twelve header octets,
    then the questions and the three sections of resource records that
    the header counts.  It fails when the buffer ends inside an item, it
    stops without an error when the buffer ends between two items, and
    it leaves what follows the last item unread. *)
Definition uint16At (msg : list byte) (off : nat) : option Z :=
  match skipn off msg with
  | b0 :: b1 :: _ => Some (Uint16 b0 b1)
  | _ => None
  end.

Definition uint32At (msg : list byte) (off : nat) : option Z :=
  match uint16At msg off, uint16At msg (off + 2) with
  | Some hi, Some lo => Some (Z.lor (Z.shiftl hi 16) lo)
  | _, _ => None
  end.

Definition labelText (l : list byte) : string :=
  fold_right (fun b t => String (ascii_of_byte b) t) "."%string l.

(** The labels of a name from [off] on, each followed by a dot, and the
    offset after the name; a compression pointer is followed. *)
Fixpoint unpackLabels (fuel : nat) (msg : list byte) (off : nat)
    : string + (string * nat) :=
  match fuel with
  | O => inl "too many compression pointers"%string
  | S fuel' =>
      match nth_error msg off with
      | None => inl "buffer size too small"%string
      | Some c =>
          let n := Z.to_nat (zOfByte c) in
          if Nat.eqb n 0 then inr (EmptyString, S off)
          else if Nat.ltb n 64 then
            let label := firstn n (skipn (S off) msg) in
            if Nat.ltb (List.length label) n
            then inl "buffer size too small"%string
            else match unpackLabels fuel' msg (S off + n) with
                 | inl e => inl e
                 | inr (rest, off') =>
                     inr (String.append (labelText label) rest, off')
                 end
          else if Nat.leb 192 n then
            match nth_error msg (S off) with
            | None => inl "buffer size too small"%string
            | Some c1 =>
                let ptr := ((n - 192) * 256 + Z.to_nat (zOfByte c1))%nat in
                match unpackLabels fuel' msg ptr with
                | inl e => inl e
                | inr (rest, _) => inr (rest, S (S off))
                end
            end
          else inl "bad rdata"%string
      end
  end.

Definition unpackDomainName (msg : list byte) (off : nat)
    : string + (string * nat) :=
  match unpackLabels 255 msg off with
  | inl e => inl e
  | inr (EmptyString, off') => inr ("."%string, off')
  | inr r => inr r
  end.

Definition unpackQuestion (msg : list byte) (off : nat)
    : string + (Dns.Question * nat) :=
  match unpackDomainName msg off with
  | inl e => inl (String.append "bad question name: " e)
  | inr (name, off1) =>
      if Nat.eqb off1 (List.length msg)
      then inr (Dns.mkQuestion name 0 0, off1)
      else match uint16At msg off1 with
           | None =>
               inl "bad question qtype: overflow unpacking uint16"%string
           | Some qtype =>
               if Nat.eqb (off1 + 2) (List.length msg)
               then inr (Dns.mkQuestion name qtype 0, (off1 + 2)%nat)
               else match uint16At msg (off1 + 2) with
                    | None =>
                        inl "bad question qclass: overflow unpacking uint16"%string
                    | Some qclass =>
                        inr (Dns.mkQuestion name qtype qclass, (off1 + 4)%nat)
                    end
           end
  end.

Fixpoint unpackQuestions (count : nat) (msg : list byte) (off : nat)
    : string + (list Dns.Question * nat) :=
  match count with
  | O => inr ([], off)
  | S count' =>
      match unpackQuestion msg off with
      | inl e => inl e
      | inr (q, off1) =>
          match unpackQuestions count' msg off1 with
          | inl e => inl e
          | inr (qs, off2) => inr (q :: qs, off2)
          end
      end
  end.

(** A resource record: name, type, class, TTL, the length of the data and
    the data, kept as octets. *)
Definition unpackRR (msg : list byte) (off : nat) : string + (Dns.RR * nat) :=
  match unpackDomainName msg off with
  | inl e => inl e
  | inr (name, off1) =>
      match uint16At msg off1, uint16At msg (off1 + 2),
            uint32At msg (off1 + 4), uint16At msg (off1 + 8) with
      | Some rrtype, Some class, Some ttl, Some rdlength =>
          let rdata := firstn (Z.to_nat rdlength) (skipn (off1 + 10) msg) in
          if Nat.ltb (List.length rdata) (Z.to_nat rdlength)
          then inl "bad rdlength"%string
          else inr (Dns.mkRR name rrtype class ttl rdata,
                    (off1 + 10 + Z.to_nat rdlength)%nat)
      | _, _, _, _ => inl "overflow unpacking uint16"%string
      end
  end.

Fixpoint unpackRRslice (count : nat) (msg : list byte) (off : nat)
    : string + (list Dns.RR * nat) :=
  match count with
  | O => inr ([], off)
  | S count' =>
      if Nat.eqb off (List.length msg) then inr ([], off)
      else match unpackRR msg off with
           | inl e => inl e
           | inr (rr, off1) =>
               match unpackRRslice count' msg off1 with
               | inl e => inl e
               | inr (rrs, off2) => inr (rr :: rrs, off2)
               end
           end
  end.

Definition unpackHeader (msg : list byte) : string + Dns.MsgBody :=
  match uint16At msg 2, uint16At msg 4, uint16At msg 6, uint16At msg 8,
        uint16At msg 10 with
  | Some bits, Some qdcount, Some ancount, Some nscount, Some arcount =>
      let body qs an ns ar :=
        {| Dns.Response := Z.testbit bits 15;
           Dns.Opcode := Z.land (Z.shiftr bits 11) 15;
           Dns.Authoritative := Z.testbit bits 10;
           Dns.Truncated := Z.testbit bits 9;
           Dns.RecursionDesired := Z.testbit bits 8;
           Dns.RecursionAvailable := Z.testbit bits 7;
           Dns.Rcode := Z.land bits 15;
           Dns.Questions := qs; Dns.Answer := an; Dns.Ns := ns;
           Dns.Extra := ar |} in
      if Nat.eqb (List.length msg) 12 then inr (body [] [] [] [])
      else
      match unpackQuestions (Z.to_nat qdcount) msg 12 with
      | inl e => inl e
      | inr (qs, off1) =>
      match unpackRRslice (Z.to_nat ancount) msg off1 with
      | inl e => inl e
      | inr (an, off2) =>
      match unpackRRslice (Z.to_nat nscount) msg off2 with
      | inl e => inl e
      | inr (ns, off3) =>
      match unpackRRslice (Z.to_nat arcount) msg off3 with
      | inl e => inl e
      | inr (ar, _) => inr (body qs an ns ar)
      end end end end
  | _, _, _, _, _ => inl "overflow unpacking uint16"%string
  end.

(** A header-only response with Id 0, as it is on the wire. *)
Definition response : list byte :=
  [x00; x00; x81; x80; x00; x00; x00; x00; x00; x00; x00; x00].

(** What the sample decoder makes of [response]. *)
Definition responseBody : Dns.MsgBody :=
  {| Dns.Response := true; Dns.Opcode := 0; Dns.Authoritative := false;
     Dns.Truncated := false; Dns.RecursionDesired := true;
     Dns.RecursionAvailable := true; Dns.Rcode := 0;
     Dns.Questions := []; Dns.Answer := []; Dns.Ns := []; Dns.Extra := [] |}.

(** What it makes of octets that are all zero. *)
Definition zeroBody : Dns.MsgBody :=
  {| Dns.Response := false; Dns.Opcode := 0; Dns.Authoritative := false;
     Dns.Truncated := false; Dns.RecursionDesired := false;
     Dns.RecursionAvailable := false; Dns.Rcode := 0;
     Dns.Questions := []; Dns.Answer := []; Dns.Ns := []; Dns.Extra := [] |}.

(** The same response in the stream framing of RFC 9250, section 4.2:
    a 2-octet length, then the message. *)
Definition framedResponse : list byte :=
  PutUint16 (Z.of_nat (List.length response)) ++ response.

(** A server that answers with the bare message. *)
Definition ok : Env :=
  env packOk (12, None) None (response, None) unpackHeader.

(** A server that answers in the framing of RFC 9250. *)
Definition framed : Env :=
  env packOk (12, None) None (framedResponse, None) unpackHeader.
End Sample.

(** ** The outcomes of sendQueryQUIC

    One constructor per [return] of the Go function: the events of the
    call, its four results and the caller's message afterwards. *)
Section Outcomes.
Variables (E : Env) (ctx : Ctx.Context) (addr : ServerAddr).

Definition deadlineEvents (c : Net.UDPConn) : list Event :=
  match Ctx.deadline ctx with
  | Some d => [EvSetDeadline c d]
  | None => []
  end.

Definition tlsFor (hostname : string) : Tls.Config :=
  {| Tls.NextProtos := ["doq"%string]; Tls.ServerName := hostname |}.

(** The events up to and including the Pack of a query. *)
Definition prologue (c : Net.UDPConn) : list Event :=
  [EvResolveUDPAddr "udp"%string (Address addr);
   EvListenUDP laddrAny (Some c)] ++ deadlineEvents c.

Inductive SendOutcome (q : Dns.Msg)
    : list Event -> SendResult -> Dns.Msg -> Prop :=
| ResolveFails msg :
    ResolveUDPAddr E (Address addr) = inl msg ->
    SendOutcome q [EvResolveUDPAddr "udp"%string (Address addr)]
      (mkSendResult None zeroTime [] (Some (ErrResolveUDPAddr msg))) q
| ListenFails udpAddr msg :
    ResolveUDPAddr E (Address addr) = inr udpAddr ->
    ListenUDP E laddrAny = inl msg ->
    SendOutcome q
      [EvResolveUDPAddr "udp"%string (Address addr);
       EvListenUDP laddrAny None]
      (mkSendResult None zeroTime [] (Some (ErrListenUDP msg))) q
| SplitFails udpAddr c msg :
    ResolveUDPAddr E (Address addr) = inr udpAddr ->
    ListenUDP E laddrAny = inr c ->
    SplitHostPort E (Address addr) = inl msg ->
    SendOutcome q
      [EvResolveUDPAddr "udp"%string (Address addr);
       EvListenUDP laddrAny (Some c)]
      (mkSendResult None zeroTime [] (Some (ErrSplitHostPort msg))) q
| PackFails udpAddr c host port msg :
    ResolveUDPAddr E (Address addr) = inr udpAddr ->
    ListenUDP E laddrAny = inr c ->
    SplitHostPort E (Address addr) = inr (host, port) ->
    Pack E (Dns.setId q 0) = inl msg ->
    SendOutcome q (prologue c)
      (mkSendResult None zeroTime [] (Some (ErrPack msg))) (Dns.setId q 0)
| DialFails udpAddr c host port raw msg :
    ResolveUDPAddr E (Address addr) = inr udpAddr ->
    ListenUDP E laddrAny = inr c ->
    SplitHostPort E (Address addr) = inr (host, port) ->
    Pack E (Dns.setId q 0) = inr raw ->
    Dial E (Quic.mkTransport c) ctx udpAddr (tlsFor host) Quic.DefaultConfig
      = inl msg ->
    SendOutcome q
      (prologue c ++
       [EvLogQuery addr raw;
        EvDial (Quic.mkTransport c) udpAddr (tlsFor host)
               Quic.DefaultConfig None])
      (mkSendResult None (logQueryTime E addr raw) raw (Some (ErrDial msg)))
      (Dns.setId q 0)
| OpenStreamFails udpAddr c host port raw conn msg :
    ResolveUDPAddr E (Address addr) = inr udpAddr ->
    ListenUDP E laddrAny = inr c ->
    SplitHostPort E (Address addr) = inr (host, port) ->
    Pack E (Dns.setId q 0) = inr raw ->
    Dial E (Quic.mkTransport c) ctx udpAddr (tlsFor host) Quic.DefaultConfig
      = inr conn ->
    OpenStream E conn = inl msg ->
    SendOutcome q
      (prologue c ++
       [EvLogQuery addr raw;
        EvDial (Quic.mkTransport c) udpAddr (tlsFor host)
               Quic.DefaultConfig (Some conn);
        EvOpenStream conn None])
      (mkSendResult None (logQueryTime E addr raw) raw
         (Some (ErrOpenStream msg)))
      (Dns.setId q 0)
| Sent udpAddr c host port raw conn s :
    ResolveUDPAddr E (Address addr) = inr udpAddr ->
    ListenUDP E laddrAny = inr c ->
    SplitHostPort E (Address addr) = inr (host, port) ->
    Pack E (Dns.setId q 0) = inr raw ->
    Dial E (Quic.mkTransport c) ctx udpAddr (tlsFor host) Quic.DefaultConfig
      = inr conn ->
    OpenStream E conn = inr s ->
    SendOutcome q
      (prologue c ++
       [EvLogQuery addr raw;
        EvDial (Quic.mkTransport c) udpAddr (tlsFor host)
               Quic.DefaultConfig (Some conn);
        EvOpenStream conn (Some s);
        EvStreamWrite s raw;
        EvStreamClose s])
      (mkSendResult (Some s) (logQueryTime E addr raw) raw None)
      (Dns.setId q 0).
End Outcomes.

(** ** The claims of the specification that the code does not meet *)

(** The claim as the specification has it: a failing write or a failing
    close of the stream makes the send fail. *)
Definition writeCloseErrorsReported : Prop :=
  forall E ctx addr w s p,
    trace w = [] ->
    In (EvStreamWrite s p)
       (trace (snd (sendQueryQUIC E ctx addr w))) ->
    snd (StreamWrite E s p) <> None \/ StreamClose E s <> None ->
    err (fst (sendQueryQUIC E ctx addr w)) <> None.

Definition isWriteOrClose (e : Event) : bool :=
  match e with
  | EvStreamWrite _ _ | EvStreamClose _ => true
  | _ => false
  end.

Module StreamFails.
(** The write is cut short and the close fails. *)
Definition E : Env :=
  Sample.env Sample.packOk (3, Some "write: stream reset"%string)
    (Some "close: stream canceled"%string)
    (Sample.response, None) Sample.unpackHeader.
End StreamFails.

(** The claim as the specification has it: when Pack fails, the query
    fails with the error of Pack and has made no network step. *)
Definition packFailureBeforeNetwork : Prop :=
  forall E ctx addr w udpAddr c hp msg,
    Ctx.err ctx = None ->
    ResolveUDPAddr E (Address addr) = inr udpAddr ->
    ListenUDP E laddrAny = inr c ->
    SplitHostPort E (Address addr) = inr hp ->
    Pack E (Dns.setId (queryMsg w) 0) = inl msg ->
    trace w = [] ->
    fst (queryQUIC E ctx addr w) = (None, Some (ErrPack msg)) /\
    forall e, In e (trace (snd (queryQUIC E ctx addr w))) ->
              networkStep e = false.

(** The steps that follow Pack in the code. *)
Definition followsPack (e : Event) : bool :=
  match e with
  | EvLogQuery _ _ | EvDial _ _ _ _ _ | EvOpenStream _ _
  | EvStreamWrite _ _ | EvStreamClose _ | EvReadFull _ _ => true
  | _ => false
  end.

Module PackFails.
Definition E : Env :=
  Sample.env Sample.packFails (0, None) None ([], None) Sample.unpackHeader.
End PackFails.

(** The claim as the specification has it: when the query has returned,
    no socket and no connection of it is held any more. *)
Definition releasedAtTerminalState : Prop :=
  forall E ctx addr w,
    trace w = [] ->
    openUDPConns [] (trace (snd (queryQUIC E ctx addr w))) = [] /\
    openConnections [] (trace (snd (queryQUIC E ctx addr w))) = [].

(** ** The order of the steps

    The position of each call in the text of the code. *)
Definition stepRank (e : Event) : nat :=
  match e with
  | EvResolveUDPAddr _ _ => 0
  | EvListenUDP _ _ => 1
  | EvSetDeadline _ _ => 2
  | EvLogQuery _ _ => 3
  | EvDial _ _ _ _ _ => 4
  | EvOpenStream _ _ => 5
  | EvStreamWrite _ _ => 6
  | EvStreamClose _ => 7
  | EvReadFull _ _ => 8
  | EvUDPConnClose _ => 9
  | EvConnectionClose _ => 10
  end%nat.

Fixpoint ascending (l : list nat) : bool :=
  match l with
  | a :: (b :: _) as rest => Nat.ltb a b && ascending rest
  | _ => true
  end.

Module ResolveFails.
(** The sample environment with a server name that does not resolve. *)
Definition E : Env :=
  {| ResolveUDPAddr := fun _ => inl "no such host"%string;
     ListenUDP := ListenUDP Sample.ok;
     SplitHostPort := SplitHostPort Sample.ok;
     SetDeadline := SetDeadline Sample.ok;
     packBody := packBody Sample.ok;
     logQueryTime := logQueryTime Sample.ok;
     Dial := Dial Sample.ok;
     OpenStream := OpenStream Sample.ok;
     StreamWrite := StreamWrite Sample.ok;
     StreamClose := StreamClose Sample.ok;
     StreamIncoming := StreamIncoming Sample.ok;
     unpackBody := unpackBody Sample.ok |}.
End ResolveFails.

Module DialFails.
(** The sample environment with a resolver that does not answer. *)
Definition E : Env :=
  {| ResolveUDPAddr := ResolveUDPAddr Sample.ok;
     ListenUDP := ListenUDP Sample.ok;
     SplitHostPort := SplitHostPort Sample.ok;
     SetDeadline := SetDeadline Sample.ok;
     packBody := packBody Sample.ok;
     logQueryTime := logQueryTime Sample.ok;
     Dial := fun _ _ _ _ _ => inl "timeout: no recent network activity"%string;
     OpenStream := OpenStream Sample.ok;
     StreamWrite := StreamWrite Sample.ok;
     StreamClose := StreamClose Sample.ok;
     StreamIncoming := StreamIncoming Sample.ok;
     unpackBody := unpackBody Sample.ok |}.
End DialFails.

(** The sample world with another Id in the caller's message. *)
Definition otherIdWorld : World :=
  {| trace := []; queryMsg := {| Dns.Id := 7; Dns.Body := Sample.body |} |}.

(** ** Lemmas on the model *)

(** The Id 0 is the two octets 0 0 on the wire. *)
Lemma PutUint16_0 : PutUint16 0 = [x00; x00].
Proof. reflexivity. Qed.

Lemma setId_0 (m : Dns.Msg) : Dns.Id (Dns.setId m 0) = 0.
Proof. reflexivity. Qed.

(** A successful Pack of a message with Id 0 starts with two zero
    octets. *)
Lemma Pack_setId_0 (E : Env) (m : Dns.Msg) (raw : list byte) :
  Pack E (Dns.setId m 0) = inr raw ->
  exists tail, packBody E (Dns.Body m) = inr tail /\ raw = x00 :: x00 :: tail.
Proof.
  unfold Pack. cbn [Dns.setId Dns.Body Dns.Id].
  change (0 mod 65536) with 0. rewrite PutUint16_0.
  destruct (packBody E (Dns.Body m)) as [msg|tail]; [discriminate|].
  intros H. injection H as <-. exists tail. split; reflexivity.
Qed.

Ltac unfold_run :=
  unfold sendQueryQUIC, bind, emit, ret, assignQueryId, readQuery;
  cbn [trace queryMsg fst snd].

Tactic Notation "close_outcome" uconstr(pf) :=
  let H := fresh "H" in
  intros H; injection H as <- <-; eexists; split;
  [ cbn [trace]; rewrite <- ?app_assoc; reflexivity | exact pf ].

(** Every run of sendQueryQUIC is one of the outcomes. *)
Lemma sendQueryQUIC_outcome E ctx addr w r w' :
  sendQueryQUIC E ctx addr w = (r, w') ->
  exists evs, trace w' = trace w ++ evs /\
              SendOutcome E ctx addr (queryMsg w) evs r (queryMsg w').
Proof.
  destruct ctx as [cerr dl].
  unfold_run.
  destruct (ResolveUDPAddr E (Address addr)) as [m1|udpAddr] eqn:Hres;
    [close_outcome (ResolveFails E _ addr (queryMsg w) m1 Hres)|].
  destruct (ListenUDP E laddrAny) as [m2|c] eqn:Hlis; cbn [okOf];
    [close_outcome (ListenFails E _ addr (queryMsg w) udpAddr m2 Hres Hlis)|].
  destruct (SplitHostPort E (Address addr)) as [m3|[host port]] eqn:Hsp;
    [close_outcome
       (SplitFails E _ addr (queryMsg w) udpAddr c m3 Hres Hlis Hsp)|].
  fold (tlsFor host).
  destruct dl as [d|]; cbn [Ctx.deadline trace queryMsg].
  all: destruct (Pack E (Dns.setId (queryMsg w) 0)) as [m4|raw] eqn:Hpk;
    [close_outcome
       (PackFails E _ addr (queryMsg w) udpAddr c host port m4
          Hres Hlis Hsp Hpk)|].
  all: destruct (Dial E _ _ udpAddr (tlsFor host) Quic.DefaultConfig)
    as [m5|conn] eqn:Hdial; cbn [okOf];
    [close_outcome
       (DialFails E _ addr (queryMsg w) udpAddr c host port raw m5
          Hres Hlis Hsp Hpk Hdial)|].
  all: destruct (OpenStream E conn) as [m6|s] eqn:Hos; cbn [okOf];
    [close_outcome
       (OpenStreamFails E _ addr (queryMsg w) udpAddr c host port raw conn m6
          Hres Hlis Hsp Hpk Hdial Hos)
    |close_outcome
       (Sent E _ addr (queryMsg w) udpAddr c host port raw conn s
          Hres Hlis Hsp Hpk Hdial Hos)].
Qed.

(** Membership in the events of an outcome, case by case. *)
Ltac in_events H :=
  unfold prologue, deadlineEvents in H;
  repeat match type of H with
         | In _ (_ ++ _) => apply in_app_or in H; destruct H as [H|H]
         | In _ (match ?d with Some _ => _ | None => _ end) => destruct d
         | In _ (_ :: _) => destruct H as [H|H]
         | In _ [] => destruct H
         | _ = _ => first [discriminate H | injection H; intros; clear H]
         end.

(** sendQueryQUIC returns a stream exactly when it returns no error. *)
Lemma sendQueryQUIC_stream_iff_ok E ctx addr w r w' :
  sendQueryQUIC E ctx addr w = (r, w') ->
  (err r = None <-> exists s, stream r = Some s).
Proof.
  intros H. apply sendQueryQUIC_outcome in H as (evs & _ & Hout).
  destruct Hout; cbn [err stream]; split;
    try discriminate; try (intros [s' Hs]; discriminate Hs);
    first [reflexivity | eexists; reflexivity].
Qed.

(** * The claims *)

(** C2: whatever Id the caller's message has, sendQueryQUIC overwrites it
    with zero before it serializes the message: the message that was
    packed is the caller's message with Id 0, the serialized query starts
    with the two Id octets 0 0, and these are the octets written to the
    stream. *)
Theorem sendQueryQUIC_id_zero_on_wire E ctx addr w r w' :
  sendQueryQUIC E ctx addr w = (r, w') ->
    (forall b bs, rawQuery r = b :: bs ->
       Dns.Id (queryMsg w') = 0 /\
       Pack E (queryMsg w') = inr (rawQuery r) /\
       exists tail, rawQuery r = x00 :: x00 :: tail)
    /\ (err r = None -> exists tail, rawQuery r = x00 :: x00 :: tail)
    /\ exists evs, trace w' = trace w ++ evs /\
         forall s p, In (EvStreamWrite s p) evs ->
           p = rawQuery r /\ exists tail, p = x00 :: x00 :: tail.
Proof.
  intros H. apply sendQueryQUIC_outcome in H as (evs & Htr & Hout).
  assert (Hraw : forall raw, Pack E (Dns.setId (queryMsg w) 0) = inr raw ->
                 exists tail, raw = x00 :: x00 :: tail).
  { intros raw Hpk. apply Pack_setId_0 in Hpk as (tail & _ & ->).
    now exists tail. }
  split; [|split].
  - intros b bs Hne.
    destruct Hout; cbn [rawQuery] in *; try discriminate Hne;
      (split; [reflexivity | split; [assumption | now apply Hraw]]).
  - destruct Hout; cbn [err rawQuery]; try discriminate; intros _;
      now apply Hraw.
  - exists evs. split; [exact Htr|]. intros s0 p Hin.
    destruct Hout; cbn [rawQuery]; in_events Hin; subst;
      (split; [reflexivity | now apply Hraw]).
Qed.

Lemma sendQueryQUIC_id_zero_on_wire_witness :
  Dns.Id (queryMsg Sample.world) = 48879 /\
  exists tail,
    rawQuery (fst (sendQueryQUIC Sample.ok Sample.background Sample.addr
                     Sample.world)) = x00 :: x00 :: tail.
Proof.
  split; [reflexivity|].
  apply (sendQueryQUIC_id_zero_on_wire Sample.ok Sample.background
           Sample.addr Sample.world _ _ (surjective_pairing _)).
  reflexivity.
Defined.

(** C3: called with a context that is already canceled or expired,
    queryQUIC returns that context's error at once: no response, no call
    to any library (the trace is unchanged, so no address resolution, no
    socket, no dial, no stream I/O) and the caller's message is left as it
    was. *)
Theorem queryQUIC_context_done E ctx addr w e :
  Ctx.err ctx = Some e ->
  queryQUIC E ctx addr w = ((None, Some (ErrContext e)), w).
Proof.
  intros He. unfold queryQUIC. rewrite He. reflexivity.
Qed.

Lemma queryQUIC_context_done_witness :
  Ctx.err Sample.canceled = Some Ctx.Canceled /\
  queryQUIC Sample.ok Sample.canceled Sample.addr Sample.world
    = ((None, Some (ErrContext Ctx.Canceled)), Sample.world).
Proof.
  split; [reflexivity|].
  apply (queryQUIC_context_done Sample.ok Sample.canceled Sample.addr
           Sample.world Ctx.Canceled).
  reflexivity.
Defined.

(** ** queryQUIC in terms of its two phases *)
Lemma queryQUIC_phases E ctx addr w res w' :
  queryQUIC E ctx addr w = (res, w') ->
  (exists e, Ctx.err ctx = Some e /\ res = (None, Some (ErrContext e)) /\ w' = w)
  \/ (Ctx.err ctx = None /\
      exists r w1, sendQueryQUIC E ctx addr w = (r, w1) /\
        ((exists e, err r = Some e /\ res = (None, Some e) /\ w' = w1)
         \/ (exists s, err r = None /\ stream r = Some s /\
               recvResponseQUIC E ctx addr s (t0 r) (rawQuery r) w1
                 = (res, w')))).
Proof.
  unfold queryQUIC.
  destruct (Ctx.err ctx) as [e|].
  - intros H; injection H as <- <-. left. now exists e.
  - intros H. right. split; [reflexivity|]. unfold bind in H.
    destruct (sendQueryQUIC E ctx addr w) as [r w1] eqn:Hsend.
    exists r, w1. split; [reflexivity|].
    destruct (err r) as [e|] eqn:Herr.
    + left. exists e. unfold ret in H. injection H as <- <-. now idtac.
    + right.
      destruct (proj1 (sendQueryQUIC_stream_iff_ok _ _ _ _ _ _ Hsend) Herr)
        as [s Hs].
      exists s. rewrite Hs in H. now idtac.
Qed.

(** recvResponseQUIC logs its read and leaves the caller's message. *)
Lemma recvResponseQUIC_world E ctx addr s t raw w res w' :
  recvResponseQUIC E ctx addr s t raw w = (res, w') ->
  trace w' = trace w ++ [EvReadFull s bufferSize] /\ queryMsg w' = queryMsg w.
Proof.
  unfold recvResponseQUIC, bind, emit, ret.
  destruct (ReadFull _ _ _) as [[buffer n] e].
  destruct (Unpack E buffer); intros H; injection H as <- <-;
    split; reflexivity.
Qed.

(** C10: once address resolution, the socket bind and the host:port split
    have succeeded, the caller's message has Id 0 when sendQueryQUIC
    returns, whatever it returns (an error of Pack, Dial or OpenStream
    included): nothing sets the Id back. *)
Theorem sendQueryQUIC_id_mutation_lasts E ctx addr w r w' udpAddr c hp :
  sendQueryQUIC E ctx addr w = (r, w') ->
  ResolveUDPAddr E (Address addr) = inr udpAddr ->
  ListenUDP E laddrAny = inr c ->
  SplitHostPort E (Address addr) = inr hp ->
  Dns.Id (queryMsg w') = 0.
Proof.
  intros H Hres Hlis Hsp.
  apply sendQueryQUIC_outcome in H as (evs & _ & Hout).
  inversion Hout; subst; try congruence; apply setId_0.
Qed.

Lemma sendQueryQUIC_id_mutation_lasts_witness :
  let E := Sample.env Sample.packFails (0, None) None ([], None)
             Sample.unpackHeader in
  let rw := sendQueryQUIC E Sample.background Sample.addr Sample.world in
  Dns.Id (queryMsg Sample.world) = 48879 /\
  err (fst rw) = Some (ErrPack "dns: bad rdata") /\
  Dns.Id (queryMsg (snd rw)) = 0.
Proof.
  intros E rw. split; [reflexivity|]. split; [reflexivity|].
  apply (sendQueryQUIC_id_mutation_lasts E Sample.background Sample.addr
           Sample.world (fst rw) (snd rw) Sample.resolver 3%nat
           ("dns.adguard.com", "853")%string);
    [apply surjective_pairing | reflexivity | reflexivity | reflexivity].
Defined.

(** C5: the TLS parameters of every Dial that sendQueryQUIC makes have
    the ALPN list ["doq"] and, as server name, the host that
    net.SplitHostPort extracts from the server address; a send that
    succeeds has made such a Dial. *)
Theorem sendQueryQUIC_tls_parameters E ctx addr w r w' :
  sendQueryQUIC E ctx addr w = (r, w') ->
  exists evs, trace w' = trace w ++ evs /\
    (forall tr raddr tlsConf conf res,
       In (EvDial tr raddr tlsConf conf res) evs ->
       Tls.NextProtos tlsConf = ["doq"%string] /\
       exists port,
         SplitHostPort E (Address addr) = inr (Tls.ServerName tlsConf, port))
    /\ (err r = None ->
        exists tr raddr tlsConf conf conn,
          In (EvDial tr raddr tlsConf conf (Some conn)) evs).
Proof.
  intros H. apply sendQueryQUIC_outcome in H as (evs & Htr & Hout).
  exists evs. split; [exact Htr|]. split.
  - intros tr raddr tlsConf conf res Hin.
    destruct Hout; in_events Hin; subst;
      (split; [reflexivity | exists port; assumption]).
  - destruct Hout; cbn [err]; try discriminate. intros _.
    do 5 eexists. apply in_or_app. right. right. left. reflexivity.
Qed.

Lemma sendQueryQUIC_tls_parameters_witness :
  exists evs,
    trace (snd (sendQueryQUIC Sample.ok Sample.background Sample.addr
                  Sample.world)) = trace Sample.world ++ evs /\
    In (EvDial (Quic.mkTransport 3%nat) Sample.resolver
          (Tls.mkConfig ["doq"%string] "dns.adguard.com")
          Quic.DefaultConfig (Some 1%nat)) evs.
Proof.
  destruct (sendQueryQUIC_tls_parameters Sample.ok Sample.background
              Sample.addr Sample.world _ _ (surjective_pairing _))
    as (evs & Htr & _ & _).
  exists evs. split; [exact Htr|].
  vm_compute in Htr. rewrite <- Htr.
  do 3 right. left. reflexivity.
Defined.

(** C6: when the context carries a deadline, sendQueryQUIC sets it on the
    socket that ListenUDP has just returned, before it dials (and it sets
    no other deadline); when the context carries none, it makes no
    SetDeadline call at all. *)
Theorem sendQueryQUIC_deadline_on_socket E ctx addr w r w' :
  sendQueryQUIC E ctx addr w = (r, w') ->
  exists evs, trace w' = trace w ++ evs /\
    match Ctx.deadline ctx with
    | Some d =>
        (forall udpAddr c hp,
           ResolveUDPAddr E (Address addr) = inr udpAddr ->
           ListenUDP E laddrAny = inr c ->
           SplitHostPort E (Address addr) = inr hp ->
           precedes (EvListenUDP laddrAny (Some c)) (EvSetDeadline c d) evs)
        /\ (forall tr raddr tlsConf conf res,
              In (EvDial tr raddr tlsConf conf res) evs ->
              ListenUDP E laddrAny = inr (Quic.Conn tr) /\
              precedes (EvSetDeadline (Quic.Conn tr) d)
                       (EvDial tr raddr tlsConf conf res) evs)
        /\ (forall c t, In (EvSetDeadline c t) evs -> t = d)
    | None => forall c t, ~ In (EvSetDeadline c t) evs
    end.
Proof.
  intros H. apply sendQueryQUIC_outcome in H as (evs & Htr & Hout).
  exists evs. split; [exact Htr|].
  destruct (Ctx.deadline ctx) as [d|] eqn:Hd.
  - assert (Hpro : forall c, prologue ctx addr c =
              [EvResolveUDPAddr "udp" (Address addr);
               EvListenUDP laddrAny (Some c); EvSetDeadline c d]).
    { intros c. unfold prologue, deadlineEvents. now rewrite Hd. }
    split; [|split].
    + intros udpAddr0 c0 hp0 Hres Hlis Hsp.
      destruct Hout; try congruence;
        assert (c0 = c) as -> by congruence; rewrite Hpro;
        exists [EvResolveUDPAddr "udp" (Address addr)], []; eexists;
        reflexivity.
    + intros tr raddr tlsConf conf res Hin.
      destruct Hout; try rewrite Hpro in *; in_events Hin; subst;
        (split; [assumption|]);
        exists [EvResolveUDPAddr "udp" (Address addr);
                EvListenUDP laddrAny (Some c)], [EvLogQuery addr raw];
        eexists; reflexivity.
    + intros c0 t Hin.
      destruct Hout; try rewrite Hpro in *; in_events Hin; subst; reflexivity.
  - intros c0 t Hin.
    destruct Hout; unfold prologue, deadlineEvents in Hin;
      try rewrite Hd in Hin; in_events Hin.
Qed.

Lemma sendQueryQUIC_deadline_on_socket_witness :
  exists evs,
    trace (snd (sendQueryQUIC Sample.ok Sample.withDeadline Sample.addr
                  Sample.world)) = trace Sample.world ++ evs /\
    precedes (EvListenUDP laddrAny (Some 3%nat)) (EvSetDeadline 3%nat 5000)
             evs.
Proof.
  destruct (sendQueryQUIC_deadline_on_socket Sample.ok Sample.withDeadline
              Sample.addr Sample.world _ _ (surjective_pairing _))
    as (evs & Htr & Hset & _).
  exists evs. split; [exact Htr|].
  apply (Hset Sample.resolver 3%nat ("dns.adguard.com", "853")%string);
    reflexivity.
Defined.

(** ** ReadFull *)
Lemma ReadFull_buffer incoming ending size :
  let got := firstn size incoming in
  fst (fst (ReadFull incoming ending size))
    = got ++ repeat x00 (size - List.length got)
  /\ List.length (fst (fst (ReadFull incoming ending size))) = size.
Proof.
  cbn [ReadFull fst]. split; [reflexivity|].
  rewrite length_app, repeat_length.
  pose proof (firstn_le_length size incoming). lia.
Qed.

Lemma ReadFull_short incoming ending size :
  (List.length incoming < size)%nat ->
  snd (ReadFull incoming ending size) <> None.
Proof.
  intros Hlt. cbn [ReadFull snd].
  rewrite firstn_all2 by lia.
  destruct (Nat.eqb_spec (List.length incoming) size); [lia|].
  destruct ending; [discriminate|].
  destruct (Nat.eqb _ 0); discriminate.
Qed.

(** C9: recvResponseQUIC drops the results of io.ReadFull.  Whatever the
    read returned (also an error, as it does whenever fewer than 1024
    octets arrive), the function parses the 1024-octet buffer, what
    arrived followed by zeros, and its result is the result of Unpack on
    that buffer: the parsed message and no error, or no message and the
    error of Unpack; it is never an error of the read. *)
Theorem recvResponseQUIC_only_unpack_errors E ctx addr s t raw w :
  let incoming := fst (StreamIncoming E s) in
  let ending := snd (StreamIncoming E s) in
  let buffer := fst (fst (ReadFull incoming ending bufferSize)) in
  List.length buffer = 1024%nat
  /\ buffer = firstn 1024 incoming
               ++ repeat x00 (1024 - List.length (firstn 1024 incoming))
  /\ ((List.length incoming < 1024)%nat ->
      snd (ReadFull incoming ending bufferSize) <> None)
  /\ fst (recvResponseQUIC E ctx addr s t raw w)
       = match Unpack E buffer with
         | inl msg => (None, Some (ErrUnpack msg))
         | inr resp => (Some resp, None)
         end
  /\ forall msg, snd (fst (recvResponseQUIC E ctx addr s t raw w))
                   <> Some (ErrStreamRead msg).
Proof.
  intros incoming ending buffer.
  destruct (ReadFull_buffer incoming ending bufferSize) as [Hbuf Hlen].
  assert (Hrun : fst (recvResponseQUIC E ctx addr s t raw w)
                 = match Unpack E buffer with
                   | inl msg => (None, Some (ErrUnpack msg))
                   | inr resp => (Some resp, None)
                   end).
  { unfold recvResponseQUIC, bind, emit, ret. subst buffer incoming ending.
    destruct (ReadFull _ _ _) as [[b n] e]. cbn [fst].
    destruct (Unpack E b); reflexivity. }
  split; [exact Hlen|]. split; [exact Hbuf|].
  split; [apply ReadFull_short|]. split; [exact Hrun|].
  intros msg. rewrite Hrun. destruct (Unpack E buffer); discriminate.
Qed.

(** C4, as stated, fails: with a stream whose Write and Close both return
    an error, sendQueryQUIC returns no error. *)
Lemma write_close_errors_not_reported : ~ writeCloseErrorsReported.
Proof.
  intros Hclaim.
  apply (Hclaim StreamFails.E Sample.background Sample.addr Sample.world
           0%nat (rawQuery (fst (sendQueryQUIC StreamFails.E
                    Sample.background Sample.addr Sample.world)))).
  - reflexivity.
  - vm_compute. do 5 right. left. reflexivity.
  - left. discriminate.
  - reflexivity.
Qed.

(** C4, amended: sendQueryQUIC drops the results of stream.Write and of
    stream.Close.  Once the stream is open, the send writes the serialized
    query to it and closes it, each exactly once and as its last two
    calls, and returns the stream and no error, whatever Write and Close
    returned (no retry); and the stream is open whenever the six steps up
    to OpenStream succeed. *)
Theorem sendQueryQUIC_drops_write_close_errors E ctx addr w r w' :
  sendQueryQUIC E ctx addr w = (r, w') ->
  exists evs, trace w' = trace w ++ evs /\
    (forall conn s, In (EvOpenStream conn (Some s)) evs ->
       err r = None /\ stream r = Some s /\
       exists pre,
         evs = pre ++ [EvStreamWrite s (rawQuery r); EvStreamClose s] /\
         forall e, In e pre -> isWriteOrClose e = false)
    /\ (forall udpAddr c host port raw conn s,
          ResolveUDPAddr E (Address addr) = inr udpAddr ->
          ListenUDP E laddrAny = inr c ->
          SplitHostPort E (Address addr) = inr (host, port) ->
          Pack E (Dns.setId (queryMsg w) 0) = inr raw ->
          Dial E (Quic.mkTransport c) ctx udpAddr (tlsFor host)
               Quic.DefaultConfig = inr conn ->
          OpenStream E conn = inr s ->
          rawQuery r = raw /\ In (EvOpenStream conn (Some s)) evs)
    /\ (forall s p, In (EvStreamWrite s p) evs ->
          err r = None /\ stream r = Some s /\ p = rawQuery r).
Proof.
  intros H. apply sendQueryQUIC_outcome in H as (evs & Htr & Hout).
  exists evs. split; [exact Htr|]. split; [|split].
  - intros conn0 s0 Hin.
    destruct Hout; in_events Hin; subst.
    cbn [err stream rawQuery]. repeat split.
    eexists (prologue ctx addr c ++ [_; _; _]).
    split; [rewrite <- app_assoc; reflexivity|].
    intros e He. in_events He; subst; reflexivity.
  - intros udpAddr0 c0 host0 port0 raw0 conn0 s0 Hres Hlis Hsp Hpk Hdial Hos.
    destruct Hout; try congruence.
    assert (udpAddr0 = udpAddr) as -> by congruence.
    assert (c0 = c) as -> by congruence.
    assert (host0 = host) as -> by congruence.
    assert (raw0 = raw) as -> by congruence.
    assert (conn0 = conn) as -> by congruence.
    assert (s0 = s) as -> by congruence.
    cbn [rawQuery]. split; [reflexivity|].
    apply in_or_app. right. right. right. left. reflexivity.
  - intros s0 p Hin.
    destruct Hout; in_events Hin; subst.
    cbn [err stream rawQuery]. repeat split.
Qed.

Lemma sendQueryQUIC_drops_write_close_errors_witness :
  let raw := [x00; x00; x01; x00; x00; x00; x00; x00; x00; x00; x00; x00] in
  let rw := sendQueryQUIC StreamFails.E Sample.background Sample.addr
              Sample.world in
  snd (StreamWrite StreamFails.E 0%nat raw)
    = Some "write: stream reset"%string /\
  StreamClose StreamFails.E 0%nat = Some "close: stream canceled"%string /\
  err (fst rw) = None /\ stream (fst rw) = Some 0%nat /\
  exists pre,
    trace (snd rw)
      = pre ++ [EvStreamWrite 0%nat (rawQuery (fst rw)); EvStreamClose 0%nat]
    /\ forall e, In e pre -> isWriteOrClose e = false.
Proof.
  intros raw rw. split; [reflexivity|]. split; [reflexivity|].
  destruct (sendQueryQUIC_drops_write_close_errors StreamFails.E
              Sample.background Sample.addr Sample.world (fst rw) (snd rw)
              (surjective_pairing _)) as (evs & Htr & Hdone & Hopen & _).
  destruct (Hopen Sample.resolver 3%nat "dns.adguard.com"%string
              "853"%string raw 1%nat 0%nat
              eq_refl eq_refl eq_refl eq_refl eq_refl eq_refl)
    as [_ Hin].
  destruct (Hdone 1%nat 0%nat Hin) as (Herr & Hs & pre & Hpre & Hno).
  split; [exact Herr|]. split; [exact Hs|].
  exists pre. split; [|exact Hno].
  rewrite Htr. cbn [Sample.world trace app]. exact Hpre.
Defined.

(** C7, as stated, fails: when Pack fails the address has been resolved
    and the UDP socket has been created. *)
Lemma pack_failure_after_network_steps : ~ packFailureBeforeNetwork.
Proof.
  intros Hclaim.
  destruct (Hclaim PackFails.E Sample.background Sample.addr Sample.world
              Sample.resolver 3%nat ("dns.adguard.com", "853")%string
              "dns: bad rdata"%string
              eq_refl eq_refl eq_refl eq_refl eq_refl eq_refl) as [_ Hnone].
  specialize (Hnone (EvListenUDP laddrAny (Some 3%nat))).
  assert (Hin : In (EvListenUDP laddrAny (Some 3%nat))
                  (trace (snd (queryQUIC PackFails.E Sample.background
                                 Sample.addr Sample.world)))).
  { vm_compute. right. left. reflexivity. }
  apply Hnone in Hin. discriminate Hin.
Qed.

(** C7, amended: when Pack fails, queryQUIC fails with the error of Pack,
    and nothing that follows Pack in the code is done: no log call, no
    dial, no stream open, write, close or read.  What precedes Pack has
    been done: the address resolution and the creation of the socket (and
    the SetDeadline, when the context has a deadline). *)
Theorem queryQUIC_pack_failure E ctx addr w res w' udpAddr c hp msg :
  queryQUIC E ctx addr w = (res, w') ->
  Ctx.err ctx = None ->
  ResolveUDPAddr E (Address addr) = inr udpAddr ->
  ListenUDP E laddrAny = inr c ->
  SplitHostPort E (Address addr) = inr hp ->
  Pack E (Dns.setId (queryMsg w) 0) = inl msg ->
  res = (None, Some (ErrPack msg)) /\
  trace w' = trace w ++ prologue ctx addr c /\
  (forall e, In e (prologue ctx addr c) -> followsPack e = false) /\
  In (EvResolveUDPAddr "udp" (Address addr)) (prologue ctx addr c) /\
  In (EvListenUDP laddrAny (Some c)) (prologue ctx addr c).
Proof.
  intros Hrun Hctx Hres Hlis Hsp Hpk.
  apply queryQUIC_phases in Hrun as [(e & He & _)|(_ & r & w1 & Hsend & Hres')];
    [congruence|].
  apply sendQueryQUIC_outcome in Hsend as (evs & Htr & Hout).
  assert (Hr : err r = Some (ErrPack msg) /\ evs = prologue ctx addr c).
  { inversion Hout; subst; try congruence; cbn [err]; split; congruence. }
  destruct Hr as [Herr ->].
  destruct Hres' as [(e & He & -> & ->)|(s & Hnone & _)]; [|congruence].
  split; [congruence|]. split; [exact Htr|].
  split; [|split].
  - intros e0 Hin. in_events Hin; subst; reflexivity.
  - left. reflexivity.
  - right. left. reflexivity.
Qed.

Lemma queryQUIC_pack_failure_witness :
  let rw := queryQUIC PackFails.E Sample.withDeadline Sample.addr
              Sample.world in
  fst rw = (None, Some (ErrPack "dns: bad rdata")) /\
  trace (snd rw) =
    [EvResolveUDPAddr "udp" "dns.adguard.com:853";
     EvListenUDP laddrAny (Some 3%nat); EvSetDeadline 3%nat 5000].
Proof.
  intros rw.
  destruct (queryQUIC_pack_failure PackFails.E Sample.withDeadline
              Sample.addr Sample.world (fst rw) (snd rw)
              Sample.resolver 3%nat ("dns.adguard.com", "853")%string
              "dns: bad rdata"%string (surjective_pairing _)
              eq_refl eq_refl eq_refl eq_refl eq_refl)
    as (Hres & Htr & _).
  split; [exact Hres | exact Htr].
Defined.

(** ** Release of the socket and of the connection *)

(** Without a releasing call, whatever is held stays held and whatever is
    acquired is held at the end. *)
Lemma openUDPConns_without_release evs :
  forall held c,
    (forall e, In e evs -> releases e = false) ->
    In c held \/ (exists l, In (EvListenUDP l (Some c)) evs) ->
    In c (openUDPConns held evs).
Proof.
  induction evs as [|e evs IH]; intros held c Hno Hc.
  - destruct Hc as [Hc|[l []]]. exact Hc.
  - assert (Hno' : forall e', In e' evs -> releases e' = false)
      by (intros e' He'; apply Hno; right; exact He').
    assert (He : releases e = false) by (apply Hno; left; reflexivity).
    assert (Hrest : forall held',
              (forall x, In x held -> In x held') ->
              (forall l, e = EvListenUDP l (Some c) -> In c held') ->
              In c (openUDPConns held' evs)).
    { intros held' Hsub Hnew. apply IH; [exact Hno'|].
      destruct Hc as [Hc|[l [Hl|Hl]]].
      - left. now apply Hsub.
      - left. now apply (Hnew l).
      - right. now exists l. }
    destruct e as [| l [c'|] | | | | | | | | |]; cbn [openUDPConns];
      try discriminate He;
      try (apply Hrest; [now intros x Hx | intros l0 Hl0; discriminate Hl0]).
    apply Hrest.
    + intros x Hx. apply in_or_app. now left.
    + intros l0 Hl0. injection Hl0 as _ ->. apply in_or_app. right.
      now left.
Qed.

Lemma openConnections_without_release evs :
  forall held c,
    (forall e, In e evs -> releases e = false) ->
    In c held \/
      (exists tr a t q, In (EvDial tr a t q (Some c)) evs) ->
    In c (openConnections held evs).
Proof.
  induction evs as [|e evs IH]; intros held c Hno Hc.
  - destruct Hc as [Hc|(tr & a & t & q & [])]. exact Hc.
  - assert (Hno' : forall e', In e' evs -> releases e' = false)
      by (intros e' He'; apply Hno; right; exact He').
    assert (He : releases e = false) by (apply Hno; left; reflexivity).
    assert (Hrest : forall held',
              (forall x, In x held -> In x held') ->
              (forall tr a t q, e = EvDial tr a t q (Some c) -> In c held') ->
              In c (openConnections held' evs)).
    { intros held' Hsub Hnew. apply IH; [exact Hno'|].
      destruct Hc as [Hc|(tr & a & t & q & [Hl|Hl])].
      - left. now apply Hsub.
      - left. now apply (Hnew tr a t q).
      - right. now exists tr, a, t, q. }
    destruct e as [| | | | tr a t q [c'|] | | | | | |];
      cbn [openConnections]; try discriminate He;
      try (apply Hrest; [now intros x Hx | intros ? ? ? ? Hl0; discriminate Hl0]).
    apply Hrest.
    + intros x Hx. apply in_or_app. now left.
    + intros tr0 a0 t1 q0 Hl0. injection Hl0 as _ _ _ _ ->.
      apply in_or_app. right. now left.
Qed.

(** The events of a whole query, and that none of them releases. *)
Lemma queryQUIC_events E ctx addr w res w' :
  queryQUIC E ctx addr w = (res, w') ->
  exists evs, trace w' = trace w ++ evs /\
              forall e, In e evs -> releases e = false.
Proof.
  intros Hrun.
  apply queryQUIC_phases in Hrun
    as [(e & _ & _ & ->)|(_ & r & w1 & Hsend & Hres)].
  { exists []. split; [now rewrite app_nil_r | intros e0 []]. }
  apply sendQueryQUIC_outcome in Hsend as (evs & Htr & Hout).
  assert (Hsent : forall e, In e evs -> releases e = false).
  { intros e Hin. destruct Hout; in_events Hin; subst; reflexivity. }
  destruct Hres as [(e & _ & _ & ->)|(s & _ & _ & Hrecv)].
  - exists evs. split; assumption.
  - apply recvResponseQUIC_world in Hrecv as [Htr' _].
    exists (evs ++ [EvReadFull s bufferSize]). split.
    + rewrite Htr', Htr, app_assoc. reflexivity.
    + intros e Hin. apply in_app_or in Hin as [Hin|[<-|[]]];
        [now apply Hsent | reflexivity].
Qed.

(** C8, as stated, fails: after a query that got its response, the socket
    and the QUIC connection are still held. *)
Lemma socket_and_connection_not_released : ~ releasedAtTerminalState.
Proof.
  intros Hclaim.
  destruct (Hclaim Sample.ok Sample.background Sample.addr Sample.world
              eq_refl) as [Hsock _].
  vm_compute in Hsock. discriminate Hsock.
Qed.

(** C8, amended: queryQUIC makes no releasing call.  Whether it ends with
    a response or with an error, its events contain no Close of a UDP
    socket or of a QUIC connection, so every socket that ListenUDP
    returned and every connection that Dial returned during the query is
    still held when the operation returns. *)
Theorem queryQUIC_releases_nothing E ctx addr w res w' :
  queryQUIC E ctx addr w = (res, w') ->
  exists evs, trace w' = trace w ++ evs /\
    (forall e, In e evs -> releases e = false) /\
    (forall l c, In (EvListenUDP l (Some c)) evs ->
                 In c (openUDPConns [] evs)) /\
    (forall tr a t q c, In (EvDial tr a t q (Some c)) evs ->
                        In c (openConnections [] evs)).
Proof.
  intros Hrun. apply queryQUIC_events in Hrun as (evs & Htr & Hno).
  exists evs. split; [exact Htr|]. split; [exact Hno|]. split.
  - intros l c Hin. apply openUDPConns_without_release; [exact Hno|].
    right. now exists l.
  - intros tr a t q c Hin. apply openConnections_without_release;
      [exact Hno|]. right. now exists tr, a, t, q.
Qed.

Lemma queryQUIC_releases_nothing_witness :
  let rw := queryQUIC Sample.ok Sample.background Sample.addr Sample.world in
  snd (fst rw) = None /\
  exists evs, trace (snd rw) = trace Sample.world ++ evs /\
              In 3%nat (openUDPConns [] evs) /\
              In 1%nat (openConnections [] evs).
Proof.
  intros rw. split; [reflexivity|].
  destruct (queryQUIC_releases_nothing Sample.ok Sample.background
              Sample.addr Sample.world (fst rw) (snd rw)
              (surjective_pairing _)) as (evs & Htr & _ & Hsock & Hconn).
  exists evs. split; [exact Htr|].
  vm_compute in Htr. split.
  - apply (Hsock laddrAny). rewrite <- Htr. right. left. reflexivity.
  - apply (Hconn (Quic.mkTransport 3%nat) Sample.resolver
             (Tls.mkConfig ["doq"%string] "dns.adguard.com")
             Quic.DefaultConfig).
    rewrite <- Htr. do 3 right. left. reflexivity.
Defined.

(** ** The framing of the response *)

(** C1: the code does not do what the claim says.  On a stream that
    carries a response in the framing of RFC 9250 (the 2-octet length
    0x000c, then a 12-octet message with Id 0), recvResponseQUIC hands to
    Unpack the whole 1024-octet buffer: the length prefix, the message and
    1010 zero octets.  Whatever Unpack makes of that buffer is the result:
    a decoder that accepts it returns a response with the Id 12, the value
    of the length prefix, where the message alone parses with Id 0; with
    the sample decoder, which parses the message alone well, the flags of
    the message are read as a count of 33152 questions and the whole query
    fails with a decoding error. *)
Theorem recvResponseQUIC_parses_prefix_and_padding
    (unpack : list byte -> string + Dns.MsgBody) :
  let E := Sample.env Sample.packOk (12, None) None
             (Sample.framedResponse, None) unpack in
  let buffer := [x00; x0c] ++ Sample.response ++ repeat x00 1010 in
  fst (recvResponseQUIC E Sample.background Sample.addr 0%nat 1000 []
         Sample.world)
    = match unpack buffer with
      | inl msg => (None, Some (ErrUnpack msg))
      | inr body => (Some {| Dns.Id := 12; Dns.Body := body |}, None)
      end
  /\ Unpack E Sample.response
     = match unpack Sample.response with
       | inl msg => inl msg
       | inr body => inr {| Dns.Id := 0; Dns.Body := body |}
       end
  /\ List.length buffer = 1024%nat
  /\ List.length Sample.response = 12%nat
  /\ Unpack Sample.framed Sample.response
     = inr {| Dns.Id := 0; Dns.Body := Sample.responseBody |}
  /\ fst (queryQUIC Sample.framed Sample.background Sample.addr Sample.world)
     = (None,
        Some (ErrUnpack "bad question qtype: overflow unpacking uint16")).
Proof.
  intros E buffer. split; [|split; [|split; [|split; [|split]]]].
  - unfold recvResponseQUIC, bind, emit, ret.
    change (ReadFull _ _ bufferSize)
      with (buffer, 14, Some (ErrStreamRead "unexpected EOF")).
    unfold Unpack. cbn [buffer app Sample.response E Sample.env unpackBody].
    destruct (unpack _); reflexivity.
  - unfold Unpack. cbn [Sample.response E Sample.env unpackBody].
    destruct (unpack _); reflexivity.
  - reflexivity.
  - reflexivity.
  - vm_compute. reflexivity.
  - vm_compute. reflexivity.
Qed.

(** * Further properties of the code *)

(** ** The two phases, with their events *)
Lemma recvResponseQUIC_result E ctx addr s t raw w :
  fst (recvResponseQUIC E ctx addr s t raw w)
  = match Unpack E (fst (fst (ReadFull (fst (StreamIncoming E s))
                                  (snd (StreamIncoming E s)) bufferSize))) with
    | inl msg => (None, Some (ErrUnpack msg))
    | inr resp => (Some resp, None)
    end.
Proof.
  unfold recvResponseQUIC, bind, emit, ret.
  destruct (ReadFull _ _ _) as [[b n] e]. cbn [fst].
  destruct (Unpack E b); reflexivity.
Qed.

Lemma queryQUIC_outcome E ctx addr w res w' :
  queryQUIC E ctx addr w = (res, w') ->
  (exists e, Ctx.err ctx = Some e /\ res = (None, Some (ErrContext e)) /\
             w' = w)
  \/ (Ctx.err ctx = None /\
      exists evs r,
        SendOutcome E ctx addr (queryMsg w) evs r (queryMsg w') /\
        ((exists e, err r = Some e /\ res = (None, Some e) /\
                    trace w' = trace w ++ evs)
         \/ (exists s, err r = None /\ stream r = Some s /\
               trace w' = trace w ++ evs ++ [EvReadFull s bufferSize] /\
               res = fst (recvResponseQUIC E ctx addr s (t0 r) (rawQuery r)
                            w')))).
Proof.
  intros Hrun.
  apply queryQUIC_phases in Hrun
    as [Hdone|(Hctx & r & w1 & Hsend & Hres)]; [left; exact Hdone|].
  right. split; [exact Hctx|].
  apply sendQueryQUIC_outcome in Hsend as (evs & Htr & Hout).
  exists evs, r.
  destruct Hres as [(e & He & -> & ->)|(s & Hnone & Hs & Hrecv)].
  - split; [exact Hout|]. left. now exists e.
  - pose proof (recvResponseQUIC_world _ _ _ _ _ _ _ _ _ Hrecv) as [Htr' Hq].
    rewrite Hq. split; [exact Hout|]. right. exists s.
    repeat split; try assumption.
    + rewrite Htr', Htr, app_assoc. reflexivity.
    + rewrite !recvResponseQUIC_result.
      pose proof (recvResponseQUIC_result E ctx addr s (t0 r) (rawQuery r) w1)
        as Hfst.
      rewrite Hrecv in Hfst. exact Hfst.
Qed.

(** ** queryQUIC as a whole *)

(** X1: queryQUIC returns a response or an error, never both and never
    neither. *)
Theorem queryQUIC_response_xor_error E ctx addr w :
  let res := fst (queryQUIC E ctx addr w) in
  (fst res = None /\ snd res <> None) \/ (fst res <> None /\ snd res = None).
Proof.
  destruct (queryQUIC E ctx addr w) as [res w'] eqn:Hrun. cbn [fst].
  apply queryQUIC_outcome in Hrun
    as [(e & _ & -> & _)|(_ & evs & r & _ & Hres)].
  { left. split; [reflexivity | discriminate]. }
  destruct Hres as [(e & _ & -> & _)|(s & _ & _ & _ & ->)].
  { left. split; [reflexivity | discriminate]. }
  rewrite recvResponseQUIC_result.
  destruct (Unpack E _); [left | right]; split;
    first [reflexivity | discriminate].
Qed.

(** X2: a query that returns no error has made exactly these calls, in
    this order: the resolution of the address, the bind of one socket, the
    SetDeadline when the context has a deadline, the log call, one dial
    over that socket to the resolved address, one OpenStream on that
    connection, then on that stream the write of the serialized query,
    the close and one read of 1024 octets. *)
Theorem queryQUIC_success_events E ctx addr w res w' :
  queryQUIC E ctx addr w = (res, w') ->
  snd res = None ->
  exists udpAddr c host port raw conn s,
    ResolveUDPAddr E (Address addr) = inr udpAddr /\
    ListenUDP E laddrAny = inr c /\
    SplitHostPort E (Address addr) = inr (host, port) /\
    Pack E (Dns.setId (queryMsg w) 0) = inr raw /\
    Dial E (Quic.mkTransport c) ctx udpAddr (tlsFor host) Quic.DefaultConfig
      = inr conn /\
    OpenStream E conn = inr s /\
    trace w' = trace w ++ prologue ctx addr c ++
                 [EvLogQuery addr raw;
                  EvDial (Quic.mkTransport c) udpAddr (tlsFor host)
                         Quic.DefaultConfig (Some conn);
                  EvOpenStream conn (Some s);
                  EvStreamWrite s raw; EvStreamClose s;
                  EvReadFull s bufferSize].
Proof.
  intros Hrun Hok.
  apply queryQUIC_outcome in Hrun
    as [(e & _ & -> & _)|(_ & evs & r & Hout & Hres)]; [discriminate Hok|].
  destruct Hres as [(e & _ & -> & _)|(s & Hnone & Hs & Htr & _)];
    [discriminate Hok|].
  destruct Hout; cbn [err stream] in Hnone, Hs; try discriminate Hnone.
  injection Hs as <-.
  exists udpAddr, c, host, port, raw, conn, s0.
  repeat split; try assumption.
  rewrite Htr, <- app_assoc. reflexivity.
Qed.

Lemma queryQUIC_success_events_witness :
  exists udpAddr c host port raw conn s,
    ResolveUDPAddr Sample.ok (Address Sample.addr) = inr udpAddr /\
    ListenUDP Sample.ok laddrAny = inr c /\
    SplitHostPort Sample.ok (Address Sample.addr) = inr (host, port) /\
    Pack Sample.ok (Dns.setId (queryMsg Sample.world) 0) = inr raw /\
    Dial Sample.ok (Quic.mkTransport c) Sample.withDeadline udpAddr
      (tlsFor host) Quic.DefaultConfig = inr conn /\
    OpenStream Sample.ok conn = inr s /\
    trace (snd (queryQUIC Sample.ok Sample.withDeadline Sample.addr
                  Sample.world))
    = trace Sample.world ++ prologue Sample.withDeadline Sample.addr c ++
        [EvLogQuery Sample.addr raw;
         EvDial (Quic.mkTransport c) udpAddr (tlsFor host)
                Quic.DefaultConfig (Some conn);
         EvOpenStream conn (Some s);
         EvStreamWrite s raw; EvStreamClose s;
         EvReadFull s bufferSize].
Proof.
  apply (queryQUIC_success_events Sample.ok Sample.withDeadline Sample.addr
           Sample.world _ _ (surjective_pairing _)).
  reflexivity.
Defined.

(** X4: the calls of a query are made in the order of the code and each
    kind of call at most once: along the events of any query the position
    of the call in the code strictly increases. *)
Theorem queryQUIC_steps_in_order E ctx addr w res w' :
  queryQUIC E ctx addr w = (res, w') ->
  exists evs, trace w' = trace w ++ evs /\
              ascending (map stepRank evs) = true.
Proof.
  intros Hrun.
  apply queryQUIC_outcome in Hrun
    as [(e0 & _ & _ & ->)|(_ & evs & r & Hout & Hres)].
  { exists []. split; [now rewrite app_nil_r | reflexivity]. }
  assert (Hsend : ascending (map stepRank evs) = true).
  { destruct Hout; unfold prologue, deadlineEvents;
      destruct (Ctx.deadline ctx); reflexivity. }
  destruct Hres as [(e0 & _ & _ & Htr)|(s & Hnone & Hs & Htr & _)].
  - exists evs. split; assumption.
  - exists (evs ++ [EvReadFull s bufferSize]). split; [exact Htr|].
    destruct Hout; cbn [err] in Hnone; try discriminate Hnone.
    unfold prologue, deadlineEvents; destruct (Ctx.deadline ctx); reflexivity.
Qed.

Lemma queryQUIC_steps_in_order_witness :
  exists evs,
    trace (snd (queryQUIC Sample.ok Sample.withDeadline Sample.addr
                  Sample.world)) = trace Sample.world ++ evs /\
    ascending (map stepRank evs) = true.
Proof.
  apply (queryQUIC_steps_in_order Sample.ok Sample.withDeadline Sample.addr
           Sample.world _ _ (surjective_pairing _)).
Defined.

(** ** sendQueryQUIC *)

(** X5: when sendQueryQUIC fails on the address resolution, on the socket
    bind or on the host:port split, it has not touched the caller's
    message: the Id is assigned only after these three steps. *)
Theorem sendQueryQUIC_early_failure_keeps_query E ctx addr w r w' :
  sendQueryQUIC E ctx addr w = (r, w') ->
  (exists msg, err r = Some (ErrResolveUDPAddr msg)) \/
  (exists msg, err r = Some (ErrListenUDP msg)) \/
  (exists msg, err r = Some (ErrSplitHostPort msg)) ->
  queryMsg w' = queryMsg w.
Proof.
  intros Hrun Herr.
  apply sendQueryQUIC_outcome in Hrun as (evs & _ & Hout).
  destruct Hout; cbn [err] in Herr; try reflexivity;
    destruct Herr as [[m Hm]|[[m Hm]|[m Hm]]]; discriminate Hm.
Qed.

Lemma sendQueryQUIC_early_failure_keeps_query_witness :
  let rw := sendQueryQUIC ResolveFails.E Sample.background Sample.addr
              Sample.world in
  err (fst rw) = Some (ErrResolveUDPAddr "no such host") /\
  Dns.Id (queryMsg (snd rw)) = 48879.
Proof.
  intros rw. split; [reflexivity|].
  rewrite (sendQueryQUIC_early_failure_keeps_query ResolveFails.E
             Sample.background Sample.addr Sample.world (fst rw) (snd rw)
             (surjective_pairing _)).
  - reflexivity.
  - left. exists "no such host"%string. reflexivity.
Defined.

(** X6: the query is logged when, and only when, its serialization
    succeeded: the log call is made once, with the serialized query, and
    the t0 that sendQueryQUIC returns is its timestamp, also when the dial
    or the stream open fails afterwards; without a serialized query there
    is no log call and t0 is the zero time. *)
Theorem sendQueryQUIC_logs_serialized_query E ctx addr w r w' :
  sendQueryQUIC E ctx addr w = (r, w') ->
  exists evs, trace w' = trace w ++ evs /\
    (forall a p, In (EvLogQuery a p) evs ->
       a = addr /\ p = rawQuery r /\
       Pack E (Dns.setId (queryMsg w) 0) = inr p /\
       t0 r = logQueryTime E addr p) /\
    (forall raw, Pack E (Dns.setId (queryMsg w) 0) = inr raw ->
       rawQuery r = raw -> In (EvLogQuery addr raw) evs) /\
    (rawQuery r = [] ->
       t0 r = zeroTime /\ forall a p, ~ In (EvLogQuery a p) evs).
Proof.
  intros Hrun.
  apply sendQueryQUIC_outcome in Hrun as (evs & Htr & Hout).
  exists evs. split; [exact Htr|].
  assert (Hne : forall raw, Pack E (Dns.setId (queryMsg w) 0) = inr raw ->
                            raw <> []).
  { intros raw Hpk. apply Pack_setId_0 in Hpk as (tail & _ & ->).
    discriminate. }
  split; [|split].
  - intros a p Hin. destruct Hout; in_events Hin; subst;
      cbn [rawQuery t0]; repeat split; assumption.
  - intros raw0 Hpk Hraw.
    destruct Hout; cbn [rawQuery] in Hraw; subst;
      try (exfalso; apply (Hne [] Hpk); reflexivity);
      apply in_or_app; right; left; reflexivity.
  - intros Hnil.
    destruct Hout; cbn [rawQuery t0] in *;
      try (exfalso; apply (Hne raw); assumption);
      (split; [reflexivity|]); intros a p Hin; in_events Hin.
Qed.

Lemma sendQueryQUIC_logs_serialized_query_witness :
  let rw := sendQueryQUIC DialFails.E Sample.background Sample.addr
              Sample.world in
  err (fst rw) = Some (ErrDial "timeout: no recent network activity") /\
  t0 (fst rw) = 1000 /\
  exists evs, trace (snd rw) = trace Sample.world ++ evs /\
              In (EvLogQuery Sample.addr (rawQuery (fst rw))) evs.
Proof.
  intros rw. split; [reflexivity|]. split; [reflexivity|].
  destruct (sendQueryQUIC_logs_serialized_query DialFails.E
              Sample.background Sample.addr Sample.world (fst rw) (snd rw)
              (surjective_pairing _)) as (evs & Htr & _ & Hlog & _).
  exists evs. split; [exact Htr|].
  apply Hlog; reflexivity.
Defined.

(** X7: whatever the server address, the socket of a query is bound to
    the IPv4 unspecified address with port 0, and the dial goes over that
    socket to the address that ResolveUDPAddr returned for the server
    address, with the default QUIC configuration. *)
Theorem sendQueryQUIC_socket_and_dial_target E ctx addr w r w' :
  sendQueryQUIC E ctx addr w = (r, w') ->
  exists evs, trace w' = trace w ++ evs /\
    (forall l c, In (EvListenUDP l c) evs ->
       l = {| Net.IP := Net.IPv4zero; Net.Port := 0; Net.Zone := ""%string |}
       /\ c = okOf (ListenUDP E l)) /\
    (forall tr raddr tlsConf conf res,
       In (EvDial tr raddr tlsConf conf res) evs ->
       ResolveUDPAddr E (Address addr) = inr raddr /\
       ListenUDP E laddrAny = inr (Quic.Conn tr) /\
       conf = Quic.DefaultConfig /\
       res = okOf (Dial E tr ctx raddr tlsConf conf)).
Proof.
  intros Hrun.
  apply sendQueryQUIC_outcome in Hrun as (evs & Htr & Hout).
  exists evs. split; [exact Htr|]. split.
  - intros l c0 Hin.
    destruct Hout; in_events Hin; subst; (split; [reflexivity|]);
      match goal with
      | Hl : ListenUDP E laddrAny = _ |- _ => rewrite Hl; reflexivity
      end.
  - intros tr raddr tlsConf conf res Hin.
    destruct Hout; in_events Hin; subst; cbn [Quic.Conn];
      repeat split; try assumption;
      match goal with
      | Hd : Dial E _ _ _ _ _ = _ |- _ => rewrite Hd; reflexivity
      end.
Qed.

Lemma sendQueryQUIC_socket_and_dial_target_witness :
  exists evs,
    trace (snd (sendQueryQUIC Sample.ok Sample.background Sample.addr
                  Sample.world)) = trace Sample.world ++ evs /\
    In (EvListenUDP laddrAny (Some 3%nat)) evs.
Proof.
  destruct (sendQueryQUIC_socket_and_dial_target Sample.ok Sample.background
              Sample.addr Sample.world _ _ (surjective_pairing _))
    as (evs & Htr & _ & _).
  exists evs. split; [exact Htr|].
  vm_compute in Htr. rewrite <- Htr. right. left. reflexivity.
Defined.

(** The Id that the caller put in the message has no influence on what
    sendQueryQUIC does. *)
Lemma sendQueryQUIC_same_body E ctx addr w1 w2 :
  trace w1 = trace w2 ->
  Dns.Body (queryMsg w1) = Dns.Body (queryMsg w2) ->
  fst (sendQueryQUIC E ctx addr w1) = fst (sendQueryQUIC E ctx addr w2) /\
  trace (snd (sendQueryQUIC E ctx addr w1))
    = trace (snd (sendQueryQUIC E ctx addr w2)).
Proof.
  intros Htr Hb.
  assert (Hpk : Pack E (Dns.setId (queryMsg w1) 0)
                = Pack E (Dns.setId (queryMsg w2) 0)).
  { unfold Pack, Dns.setId. cbn [Dns.Body Dns.Id]. now rewrite Hb. }
  destruct ctx as [cerr dl]. unfold_run. rewrite Htr.
  destruct (ResolveUDPAddr E (Address addr)) as [m1|udpAddr];
    [split; reflexivity|].
  destruct (ListenUDP E laddrAny) as [m2|c]; [split; reflexivity|].
  destruct (SplitHostPort E (Address addr)) as [m3|[host port]];
    [split; reflexivity|].
  destruct dl as [d|]; cbn [Ctx.deadline trace queryMsg]; rewrite Hpk.
  all: destruct (Pack E (Dns.setId (queryMsg w2) 0)) as [m4|raw];
    [split; reflexivity|].
  all: destruct (Dial E _ _ udpAddr _ _) as [m5|conn];
    [split; reflexivity|].
  all: destruct (OpenStream E conn) as [m6|s]; split; reflexivity.
Qed.

(** X8: the Id that the caller put in the query has no influence on a
    query: two calls that differ only in that Id return the same response
    or error and make the same calls. *)
Theorem queryQUIC_id_irrelevant E ctx addr w1 w2 :
  trace w1 = trace w2 ->
  Dns.Body (queryMsg w1) = Dns.Body (queryMsg w2) ->
  fst (queryQUIC E ctx addr w1) = fst (queryQUIC E ctx addr w2) /\
  trace (snd (queryQUIC E ctx addr w1))
    = trace (snd (queryQUIC E ctx addr w2)).
Proof.
  intros Htr Hb.
  destruct (sendQueryQUIC_same_body E ctx addr w1 w2 Htr Hb) as [Hr Ht].
  unfold queryQUIC.
  destruct (Ctx.err ctx) as [e|]; [split; [reflexivity | exact Htr]|].
  unfold bind.
  destruct (sendQueryQUIC E ctx addr w1) as [r1 v1].
  destruct (sendQueryQUIC E ctx addr w2) as [r2 v2].
  cbn [fst snd] in Hr, Ht. subst r2.
  destruct (err r1) as [e|]; [split; [reflexivity | exact Ht]|].
  destruct (stream r1) as [s|]; [|split; [reflexivity | exact Ht]].
  split.
  - rewrite !recvResponseQUIC_result. reflexivity.
  - destruct (recvResponseQUIC E ctx addr s (t0 r1) (rawQuery r1) v1)
      as [x1 u1] eqn:H1.
    destruct (recvResponseQUIC E ctx addr s (t0 r1) (rawQuery r1) v2)
      as [x2 u2] eqn:H2.
    apply recvResponseQUIC_world in H1 as [H1 _].
    apply recvResponseQUIC_world in H2 as [H2 _].
    cbn [snd]. rewrite H1, H2, Ht. reflexivity.
Qed.

Lemma queryQUIC_id_irrelevant_witness :
  Dns.Id (queryMsg Sample.world) <> Dns.Id (queryMsg otherIdWorld) /\
  fst (queryQUIC Sample.ok Sample.background Sample.addr Sample.world)
    = fst (queryQUIC Sample.ok Sample.background Sample.addr otherIdWorld).
Proof.
  split; [discriminate|].
  apply (queryQUIC_id_irrelevant Sample.ok Sample.background Sample.addr
           Sample.world otherIdWorld); reflexivity.
Defined.

(** ** recvResponseQUIC *)

(** The first two octets of the buffer that is parsed. *)
Lemma ReadFull_first_octets incoming ending :
  exists rest,
    fst (fst (ReadFull incoming ending bufferSize))
    = nth 0 incoming x00 :: nth 1 incoming x00 :: rest.
Proof.
  cbn [ReadFull fst]. change bufferSize with (S (S 1022)).
  destruct incoming as [|a [|b rest]].
  - eexists. cbn [firstn List.length app nth Nat.sub repeat]. reflexivity.
  - eexists. cbn [firstn List.length app nth Nat.sub repeat]. reflexivity.
  - eexists. cbn [firstn app nth]. reflexivity.
Qed.

(** X9: the Id of a response that recvResponseQUIC returns is the
    big-endian value of the first two octets of the stream, with zero for
    an octet that did not arrive: a stream that ends at once gives Id 0. *)
Theorem recvResponseQUIC_id_from_first_octets E ctx addr s t raw w resp :
  fst (fst (recvResponseQUIC E ctx addr s t raw w)) = Some resp ->
  Dns.Id resp = Uint16 (nth 0 (fst (StreamIncoming E s)) x00)
                       (nth 1 (fst (StreamIncoming E s)) x00).
Proof.
  rewrite recvResponseQUIC_result.
  destruct (ReadFull_first_octets (fst (StreamIncoming E s))
              (snd (StreamIncoming E s))) as [rest ->].
  unfold Unpack.
  destruct (unpackBody E _) as [msg|body]; cbn [fst]; [discriminate|].
  intros H. injection H as <-. reflexivity.
Qed.

Lemma recvResponseQUIC_id_from_first_octets_witness :
  let E := Sample.env Sample.packOk (12, None) None ([], None)
             Sample.unpackHeader in
  fst (StreamIncoming E 0%nat) = [] /\
  fst (fst (recvResponseQUIC E Sample.background Sample.addr 0%nat 1000 []
              Sample.world))
    = Some {| Dns.Id := 0; Dns.Body := Sample.zeroBody |} /\
  Dns.Id {| Dns.Id := 0; Dns.Body := Sample.zeroBody |} = Uint16 x00 x00.
Proof.
  intros E. split; [reflexivity|]. split; [vm_compute; reflexivity|].
  apply (recvResponseQUIC_id_from_first_octets E Sample.background
           Sample.addr 0%nat 1000 [] Sample.world).
  vm_compute. reflexivity.
Defined.
